(** * Benchmark result analysis: a shallow embedding of the analysis scripts

    The development embeds three Python scripts of the repository:

    - [examples/scripts/analyze_benchmarks.py]: the three suite drivers
      ([analyze_pglib], [analyze_pfdelta], [analyze_opfdata]) and the
      LaTeX data generator ([generate_latex_table]);
    - [validation_results/analyze_results.py]: the multi-method comparison
      ([load_results], [analyze_method], the two table printers, [main]);
    - [examples/scripts/parse_baseline.py]: the baseline extractor.

    Conventions of the embedding.

    - A Python [float] is a rational ([Q]): sorting, indexing, filtering and
      counting are exact, rounding of sums and quotients is not modelled, and
      the non-finite floats are outside the model.
    - A raised exception is a value of [res]; printing is the output
      component of the statement monad [M]. What was printed before an
      exception is kept.
    - A formatted line is a constructor of [line] that carries the values
      the f-string formats; constant lines are [Text].
    - The file system is a finite map from a path to the rows that
      [csv.DictReader] yields for it.
    - The built-in conversions [float] and [int] on strings, and the regular
      expression search of the baseline extractor, are library code: they are
      the fields of the classes [PyParsers] and [BaselinePattern]. *)

From Stdlib Require Import QArith ZArith String Ascii Lia.
From stdpp Require Import base option list gmap strings sorting.

(** ** Exceptions and the two monads *)

Inductive exn :=
  | KeyError | ValueError | TypeError | AttributeError
  | ZeroDivisionError | IndexError | FileNotFoundError | StatisticsError.

Inductive res (A : Type) :=
  | Ok (a : A)
  | Raise (e : exn).
Arguments Ok {A} a.
Arguments Raise {A} e.

#[export] Instance res_ret : MRet res := fun A a => Ok a.
#[export] Instance res_bind : MBind res := fun A B f m =>
  match m with
  | Ok a => f a
  | Raise e => Raise e
  end.

#[export] Instance res_fmap : FMap res := fun A B f m =>
  match m with
  | Ok a => Ok (f a)
  | Raise e => Raise e
  end.

Definition raises {A} (m : res A) : Prop := ∃ e, m = Raise e.
Definition returns {A} (m : res A) : Prop := ∃ a, m = Ok a.

(** ** Python values *)

(** The values found in a [csv.DictReader] row ([str], or [None] for a
    short row) and the integer default of [r.get(key, 0)]. *)
Inductive pyval :=
  | PStr (s : string)
  | PNone
  | PInt (z : Z).

(** The values of the statistics dictionary of the method comparison. *)
Inductive statval :=
  | SStr (s : string)
  | SInt (z : Z)
  | SFloat (x : Q).

(** The lines a script prints. *)
Inductive line :=
  | Text (s : string)
  | LResultsDir (dir : string)
  | LNotFound (suite path : string)
  | LConvergence (conv total : nat) (rate : Q)
  | LSolveTime (median mean : Q)
  | LMinMax (lo hi : Q)
  | LObjGap (median mean : Q)
  | LGapMinMax (lo hi : Q)
  | LSizeBucket (category : string) (n : nat) (avg : Q)
  | LCase (case : string) (conv samples : nat) (rate : Q)
  | LAvgSolve (avg : Q)
  | LTotal (conv total : nat) (rate : Q)
  | LOverall (median mean : Q)
  | LTimeP10P90 (p10 p90 : Q)
  | LGapP10P90 (p10 p90 : Q)
  | LLatexSuite (suite : string) (conv total : nat) (median gap : Q)
  | LLatexPFDelta (conv total : nat) (rate : Q)
  | LLoading (method path : string)
  | LLoaded (n : nat)
  | LSample (case : pyval) (obj : Q) (gap : option Q) (time : Q)
  | LFileNotFound (method path : string)
  | LSummaryRow (method conv total rate gap time vm flow : statval)
  | LLatexRow (method conv total gap time vm flow : statval)
  | LExtracted (n : nat) (output_csv : string).

Record M (A : Type) := MkM { printed : list line; outcome : res A }.
Arguments MkM {A} printed outcome.
Arguments printed {A} m.
Arguments outcome {A} m.

#[export] Instance M_ret : MRet M := fun A a => MkM [] (Ok a).
#[export] Instance M_bind : MBind M := fun A B f m =>
  match outcome m with
  | Ok a => MkM (printed m ++ printed (f a)) (outcome (f a))
  | Raise e => MkM (printed m) (Raise e)
  end.

Definition print (l : line) : M unit := MkM [l] (Ok tt).

(** [m] after the lines [out] were printed. *)
Definition prepend {A} (out : list line) (m : M A) : M A :=
  MkM (out ++ printed m) (outcome m).
Definition eval {A} (e : res A) : M A := MkM [] e.

Fixpoint for_each {A} (xs : list A) (body : A → M unit) : M unit :=
  match xs with
  | [] => mret tt
  | x :: xs' => body x ≫= λ _, for_each xs' body
  end.

Fixpoint foldM {A S} (body : S → A → M S) (s : S) (xs : list A) : M S :=
  match xs with
  | [] => mret s
  | x :: xs' => body s x ≫= λ s', foldM body s' xs'
  end.

Fixpoint foldE {A S} (body : S → A → res S) (s : S) (xs : list A) : res S :=
  match xs with
  | [] => Ok s
  | x :: xs' => body s x ≫= λ s', foldE body s' xs'
  end.

(** [[f(x) for x in xs if p(x)]]: the condition and then the element are
    evaluated for each [x] in turn, and the first exception ends the
    comprehension. *)
Fixpoint list_comp {A B} (xs : list A) (p : A → res bool) (f : A → res B)
  : res (list B) :=
  match xs with
  | [] => Ok []
  | x :: xs' =>
      b ← p x;
      if b : bool
      then y ← f x; ys ← list_comp xs' p f; Ok (y :: ys)
      else list_comp xs' p f
  end.

Definition always {A} (_ : A) : res bool := Ok true.

(** ** Built-ins *)

Class PyParsers := {
  py_float : string → option Q;   (* [float(s)]; [None] is ValueError *)
  py_int : string → option Z      (* [int(s)]; [None] is ValueError *)
}.

Definition lower_ascii (c : ascii) : ascii :=
  let n := nat_of_ascii c in
  if (65 <=? n)%nat && (n <=? 90)%nat then ascii_of_nat (n + 32) else c.

Fixpoint lower (s : string) : string :=
  match s with
  | EmptyString => EmptyString
  | String c s' => String (lower_ascii c) (lower s')
  end.

(** [v.lower()] *)
Definition py_lower (v : pyval) : res string :=
  match v with
  | PStr s => Ok (lower s)
  | _ => Raise AttributeError
  end.

(** [r[key]] and [r.get(key, default)] *)
Definition getitem (r : gmap string pyval) (key : string) : res pyval :=
  match r !! key with
  | Some v => Ok v
  | None => Raise KeyError
  end.

Definition get (r : gmap string pyval) (key : string) (default : pyval) : pyval :=
  match r !! key with
  | Some v => v
  | None => default
  end.

(** [xs[i]] for a non-negative index *)
Definition index {A} (xs : list A) (i : nat) : res A :=
  match xs !! i with
  | Some x => Ok x
  | None => Raise IndexError
  end.

(** [xs[-1]] *)
Definition index_last {A} (xs : list A) : res A :=
  match last xs with
  | Some x => Ok x
  | None => Raise IndexError
  end.

(** true division [a / b] *)
Definition py_div (a b : Q) : res Q :=
  if Qeq_bool b 0 then Raise ZeroDivisionError else Ok (a / b)%Q.

(** [sum(xs)] *)
Definition sum (xs : list Q) : Q := fold_left Qplus xs 0%Q.

Definition Qgt_bool (a b : Q) : bool := negb (Qle_bool a b).

(** [sorted(xs)]: a stable sort that uses only the comparison [x < y],
    here as [negb (leb y x)]. *)
Section Sorted.
Context {A : Type} (leb : A → A → bool).

Fixpoint insert_sorted (x : A) (l : list A) : list A :=
  match l with
  | [] => [x]
  | y :: l' => if leb x y then x :: y :: l' else y :: insert_sorted x l'
  end.

Fixpoint sorted (l : list A) : list A :=
  match l with
  | [] => []
  | x :: l' => insert_sorted x (sorted l')
  end.
End Sorted.

Definition nat_Q (n : nat) : Q := inject_Z (Z.of_nat n).

(** [posixpath.join(a, b)] *)
Definition ends_with_slash (s : string) : bool :=
  match last (list_ascii_of_string s) with
  | Some c => bool_decide (c = "/"%char)
  | None => false
  end.

Definition path_join (a b : string) : string :=
  match b with
  | String "/" _ => b
  | _ => if bool_decide (a = "") || ends_with_slash a then a +:+ b
         else a +:+ "/" +:+ b
  end.

Fixpoint repeat_string (s : string) (n : nat) : string :=
  match n with
  | O => ""
  | S n' => s +:+ repeat_string s n'
  end.

Definition nl : string := String (ascii_of_nat 10) "".

Definition rule (n : nat) : string := repeat_string "=" n.

Section Builtins.
Context `{PyParsers}.

(** [float(v)] *)
Definition float (v : pyval) : res Q :=
  match v with
  | PStr s => match py_float s with
              | Some x => Ok x
              | None => Raise ValueError
              end
  | PNone => Raise TypeError
  | PInt z => Ok (inject_Z z)
  end.

(** [int(v)] *)
Definition int (v : pyval) : res Z :=
  match v with
  | PStr s => match py_int s with
              | Some z => Ok z
              | None => Raise ValueError
              end
  | PNone => Raise TypeError
  | PInt z => Ok z
  end.
End Builtins.

(** ** examples/scripts/analyze_benchmarks.py *)

Module AnalyzeBenchmarks.
Section Script.
Context `{PyParsers}.
(** The results directory as the script finds it. *)
Variable fs : gmap string (list (gmap string pyval)).

Definition exists_path (path : string) : bool :=
  bool_decide (is_Some (fs !! path)).

Definition load_csv (path : string) : res (list (gmap string pyval)) :=
  match fs !! path with
  | Some data => Ok data
  | None => Raise FileNotFoundError
  end.

Definition safe_float (val : pyval) (default : Q) : res Q :=
  match float val with
  | Ok x => Ok x
  | Raise ValueError | Raise TypeError => Ok default
  | Raise e => Raise e
  end.

(** The expressions the drivers repeat. *)

(** [r.get('converged', '').lower() == 'true'] *)
Definition is_converged (r : gmap string pyval) : res bool :=
  s ← py_lower (get r "converged" (PStr ""));
  Ok (bool_decide (s = "true")).

(** [safe_float(r['solve_time_ms'])] *)
Definition solve_time_of (r : gmap string pyval) : res Q :=
  v ← getitem r "solve_time_ms"; safe_float v 0.

(** [safe_float(r.get('objective_gap_rel', 0))] *)
Definition gap_rel_of (r : gmap string pyval) : res Q :=
  safe_float (get r "objective_gap_rel" (PInt 0)) 0.

(** [safe_float(r.get('objective_value', 0)) > 0] *)
Definition objective_positive (r : gmap string pyval) : res bool :=
  x ← safe_float (get r "objective_value" (PInt 0)) 0;
  Ok (Qgt_bool x 0).

(** [sizes[key].append(r)] on a [defaultdict(list)] *)
Definition append_to (sizes : gmap string (list (gmap string pyval)))
    (key : string) (r : gmap string pyval)
  : gmap string (list (gmap string pyval)) :=
  <[key := default [] (sizes !! key) ++ [r]]> sizes.

(** The body of the size-distribution loop (lines 62-69). *)
Definition size_step (sizes : gmap string (list (gmap string pyval)))
    (r : gmap string pyval) : res (gmap string (list (gmap string pyval))) :=
  v ← getitem r "num_buses";
  buses ← int v;
  if (buses <? 500)%Z then Ok (append_to sizes "small (<500 buses)" r)
  else if (buses <? 2000)%Z then Ok (append_to sizes "medium (500-2000 buses)" r)
  else Ok (append_to sizes "large (>2000 buses)" r).

(** [sorted(sizes.items())]: the keys are distinct, so the tuples are
    ordered by their first component. *)
Definition sorted_items (sizes : gmap string (list (gmap string pyval)))
  : list (string * list (gmap string pyval)) :=
  sorted (λ a b, String.leb a.1 b.1) (map_to_list sizes).

(** The solve-time part of [analyze_pglib] (lines 42-47), on the sorted
    solve times. *)
Definition pglib_solve_times (solve_times : list Q) : M unit :=
  if bool_decide (solve_times ≠ []) then
    let median_idx := (length solve_times / 2)%nat in
    median_time ← eval (index solve_times median_idx);
    mean_time ← eval (py_div (sum solve_times) (nat_Q (length solve_times)));
    print (LSolveTime median_time mean_time);;
    lo ← eval (index solve_times 0);
    hi ← eval (index_last solve_times);
    print (LMinMax lo hi)
  else mret tt.

(** The objective-gap part of [analyze_pglib] (lines 53-58), on the
    sorted gaps. *)
Definition pglib_gaps (gaps : list Q) : M unit :=
  if bool_decide (gaps ≠ []) then
    let median_idx := (length gaps / 2)%nat in
    g ← eval (index gaps median_idx);
    let median_gap := (g * 100)%Q in
    m ← eval (py_div (sum gaps) (nat_Q (length gaps)));
    let mean_gap := (m * 100)%Q in
    print (LObjGap median_gap mean_gap);;
    lo ← eval (index gaps 0);
    hi ← eval (index_last gaps);
    print (LGapMinMax (lo * 100) (hi * 100))
  else mret tt.

(** The body of the loop that prints the size distribution
    (lines 72-76). *)
Definition pglib_size_line (item : string * list (gmap string pyval)) : M unit :=
  let '(category, cases) := item in
  solve_times ← eval (list_comp cases always solve_time_of);
  if bool_decide (solve_times ≠ []) then
    avg_time ← eval (py_div (sum solve_times) (nat_Q (length solve_times)));
    print (LSizeBucket category (length cases) avg_time)
  else mret tt.

(** The size-distribution part of [analyze_pglib] (lines 61-76). *)
Definition pglib_sizes (converged : list (gmap string pyval)) : M unit :=
  sizes ← eval (foldE size_step ∅ converged);
  print (Text (nl +:+ "By network size:"));;
  for_each (sorted_items sizes) pglib_size_line.

Definition analyze_pglib (results_dir : string) : M unit :=
  let path := path_join results_dir "pglib_full.csv" in
  if negb (exists_path path) then
    print (LNotFound "PGLib" path)
  else
    data ← eval (load_csv path);
    print (Text (nl +:+ rule 60));;
    print (Text "PGLib-OPF Benchmark Results");;
    print (Text (rule 60));;
    converged ← eval (list_comp data is_converged Ok);
    let total := length data in
    rate ← eval (py_div (100 * nat_Q (length converged)) (nat_Q total));
    print (LConvergence (length converged) total rate);;
    (* Solve times *)
    solve_times ← eval (sorted Qle_bool <$> list_comp converged always solve_time_of);
    pglib_solve_times solve_times;;
    (* Objective gaps (filter out negative objectives) *)
    gaps ← eval (sorted Qle_bool <$> list_comp converged objective_positive gap_rel_of);
    pglib_gaps gaps;;
    (* Size distribution *)
    pglib_sizes converged.

(** The body of the loop over the contingency classes (lines 93-103);
    the state is [(case_samples, case_converged, case_times)]. *)
Definition pfdelta_contingency (results_dir case : string)
    (st : nat * nat * list Q) (contingency : string) : res (nat * nat * list Q) :=
  let '(case_samples, case_converged, case_times) := st in
  let filename := "pfdelta_" +:+ case +:+ "_" +:+ contingency +:+ ".csv" in
  let path := path_join results_dir filename in
  if negb (exists_path path) then Ok st
  else
    data ← load_csv path;
    converged ← list_comp data is_converged Ok;
    times ← list_comp converged always solve_time_of;
    Ok ((case_samples + length data)%nat,
        (case_converged + length converged)%nat,
        case_times ++ times).

(** The body of the loop over the cases (lines 88-112); the state is
    [(total_samples, total_converged, all_solve_times)]. *)
Definition pfdelta_case (results_dir : string)
    (st : nat * nat * list Q) (case : string) : M (nat * nat * list Q) :=
  let '(total_samples, total_converged, all_solve_times) := st in
  '(case_samples, case_converged, case_times) ←
    eval (foldE (pfdelta_contingency results_dir case) (0, 0, [])%nat ["n"; "n1"; "n2"]);
  if (0 <? case_samples)%nat then
    avg_time ← eval (if bool_decide (case_times ≠ [])
                     then py_div (sum case_times) (nat_Q (length case_times))
                     else Ok 0%Q);
    rate ← eval (py_div (100 * nat_Q case_converged) (nat_Q case_samples));
    print (LCase case case_converged case_samples rate);;
    print (LAvgSolve avg_time);;
    mret ((total_samples + case_samples)%nat,
          (total_converged + case_converged)%nat,
          all_solve_times ++ case_times)
  else mret st.

(** The overall solve-time line of [analyze_pfdelta] (lines 117-120). *)
Definition pfdelta_overall (all_solve_times : list Q) : M unit :=
  if bool_decide (all_solve_times ≠ []) then
    let all_solve_times := sorted Qle_bool all_solve_times in
    let median_idx := (length all_solve_times / 2)%nat in
    median ← eval (index all_solve_times median_idx);
    mean ← eval (py_div (sum all_solve_times) (nat_Q (length all_solve_times)));
    print (LOverall median mean)
  else mret tt.

Definition analyze_pfdelta (results_dir : string) : M unit :=
  print (Text (nl +:+ rule 60));;
  print (Text "PFDelta Power Flow Benchmark Results");;
  print (Text (rule 60));;
  '(total_samples, total_converged, all_solve_times) ←
    foldM (pfdelta_case results_dir) (0, 0, [])%nat ["case30"; "case57"; "case118"];
  (if (0 <? total_samples)%nat then
     rate ← eval (py_div (100 * nat_Q total_converged) (nat_Q total_samples));
     print (LTotal total_converged total_samples rate)
   else mret tt);;
  pfdelta_overall all_solve_times.

(** The solve-time part of [analyze_opfdata] (lines 142-147), on the
    sorted solve times. *)
Definition opfdata_solve_times (solve_times : list Q) : M unit :=
  if bool_decide (solve_times ≠ []) then
    let median_idx := (length solve_times / 2)%nat in
    median_time ← eval (index solve_times median_idx);
    mean_time ← eval (py_div (sum solve_times) (nat_Q (length solve_times)));
    print (LSolveTime median_time mean_time);;
    p10 ← eval (index solve_times (length solve_times / 10)%nat);
    p90 ← eval (index solve_times (9 * length solve_times / 10)%nat);
    print (LTimeP10P90 p10 p90)
  else mret tt.

(** The objective-gap part of [analyze_opfdata] (lines 151-156), on the
    sorted gaps. *)
Definition opfdata_gaps (gaps : list Q) : M unit :=
  if bool_decide (gaps ≠ []) then
    let median_idx := (length gaps / 2)%nat in
    g ← eval (index gaps median_idx);
    let median_gap := (g * 100)%Q in
    m ← eval (py_div (sum gaps) (nat_Q (length gaps)));
    let mean_gap := (m * 100)%Q in
    print (LObjGap median_gap mean_gap);;
    p10 ← eval (index gaps (length gaps / 10)%nat);
    p90 ← eval (index gaps (9 * length gaps / 10)%nat);
    print (LGapP10P90 (p10 * 100) (p90 * 100))
  else mret tt.

Definition analyze_opfdata (results_dir : string) : M unit :=
  let path := path_join results_dir "opfdata_case118.csv" in
  if negb (exists_path path) then
    print (LNotFound "OPFData" path)
  else
    data ← eval (load_csv path);
    print (Text (nl +:+ rule 60));;
    print (Text "OPFData AC-OPF Benchmark Results (case118)");;
    print (Text (rule 60));;
    converged ← eval (list_comp data is_converged Ok);
    let total := length data in
    rate ← eval (py_div (100 * nat_Q (length converged)) (nat_Q total));
    print (LConvergence (length converged) total rate);;
    (* Solve times *)
    solve_times ← eval (sorted Qle_bool <$> list_comp converged always solve_time_of);
    opfdata_solve_times solve_times;;
    (* Objective gaps *)
    gaps ← eval (sorted Qle_bool <$> list_comp converged always gap_rel_of);
    opfdata_gaps gaps.

(** [safe_float(r.get('objective_gap_rel', 0))*100] *)
Definition gap_pct_of (r : gmap string pyval) : res Q :=
  g ← gap_rel_of r; Ok (g * 100)%Q.

(** The body of the inner loop of the PFDelta totals (lines 180-185);
    the state is [(total_pf, total_pf_conv)]. *)
Definition latex_pfdelta_step (results_dir case : string)
    (st : nat * nat) (cont : string) : res (nat * nat) :=
  let '(total_pf, total_pf_conv) := st in
  let path := path_join results_dir ("pfdelta_" +:+ case +:+ "_" +:+ cont +:+ ".csv") in
  if exists_path path then
    data ← load_csv path;
    conv ← list_comp data is_converged (λ _, Ok 1%nat);
    Ok ((total_pf + length data)%nat, (total_pf_conv + sum_list conv)%nat)
  else Ok st.

(** The three parts of [generate_latex_table]: lines 164-174, 176-188
    and 190-199. *)
Definition latex_pglib (results_dir : string) : M unit :=
  let pglib_path := path_join results_dir "pglib_full.csv" in
  if exists_path pglib_path then
    data ← eval (load_csv pglib_path);
    converged ← eval (list_comp data is_converged Ok);
    solve_times ← eval (list_comp converged always solve_time_of);
    gaps ← eval (list_comp converged objective_positive gap_pct_of);
    median ← eval (index (sorted Qle_bool solve_times) (length solve_times / 2)%nat);
    gap ← eval (index (sorted Qle_bool gaps) (length gaps / 2)%nat);
    print (LLatexSuite "PGLib" (length converged) (length data) median gap)
  else mret tt.

Definition latex_pfdelta (results_dir : string) : M unit :=
  '(total_pf, total_pf_conv) ←
    eval (foldE (λ st case,
                   foldE (latex_pfdelta_step results_dir case) st ["n"; "n1"; "n2"])
                (0, 0)%nat ["case30"; "case57"; "case118"]);
  if (0 <? total_pf)%nat then
    rate ← eval (py_div (100 * nat_Q total_pf_conv) (nat_Q total_pf));
    print (LLatexPFDelta total_pf_conv total_pf rate)
  else mret tt.

Definition latex_opfdata (results_dir : string) : M unit :=
  let opf_path := path_join results_dir "opfdata_case118.csv" in
  if exists_path opf_path then
    data ← eval (load_csv opf_path);
    converged ← eval (list_comp data is_converged Ok);
    solve_times ← eval (list_comp converged always solve_time_of);
    gaps ← eval (list_comp converged always gap_pct_of);
    median ← eval (index (sorted Qle_bool solve_times) (length solve_times / 2)%nat);
    gap ← eval (index (sorted Qle_bool gaps) (length gaps / 2)%nat);
    print (LLatexSuite "OPFData" (length converged) (length data) median gap)
  else mret tt.

Definition generate_latex_table (results_dir : string) : M unit :=
  print (Text (nl +:+ rule 60));;
  print (Text "LaTeX Table Data");;
  print (Text (rule 60));;
  latex_pglib results_dir;;
  latex_pfdelta results_dir;;
  latex_opfdata results_dir.

(** [argv] is [sys.argv]. *)
Definition main (argv : list string) : M unit :=
  let results_dir := match argv with
                     | _ :: d :: _ => d
                     | _ => "results"
                     end in
  print (Text "Benchmark Analysis");;
  print (Text (rule 60));;
  print (LResultsDir results_dir);;
  analyze_pglib results_dir;;
  analyze_pfdelta results_dir;;
  analyze_opfdata results_dir;;
  generate_latex_table results_dir.
End Script.
End AnalyzeBenchmarks.

(** ** A parser instance: plain ASCII decimal literals

    The fragment of Python's [float] and [int] grammar made of an optional
    sign, decimal digits, an optional fraction and an optional exponent. It
    instantiates [PyParsers] in the concrete examples. *)

Module Decimal.
Definition digit (c : ascii) : option Z :=
  let n := nat_of_ascii c in
  if (48 <=? n)%nat && (n <=? 57)%nat then Some (Z.of_nat (n - 48)) else None.

(** A maximal run of digits: its value, its length and the rest. *)
Fixpoint digits (s : string) (acc : Z) (cnt : nat) : Z * nat * string :=
  match s with
  | String c s' =>
      match digit c with
      | Some d => digits s' (10 * acc + d)%Z (S cnt)
      | None => (acc, cnt, s)
      end
  | EmptyString => (acc, cnt, s)
  end.

Definition sign (s : string) : Z * string :=
  match s with
  | String "-" s' => ((-1)%Z, s')
  | String "+" s' => (1%Z, s')
  | _ => (1%Z, s)
  end.

Definition parse_int (s : string) : option Z :=
  let '(sg, s1) := sign s in
  let '(v, n, rest) := digits s1 0 0 in
  if (0 <? n)%nat && bool_decide (rest = "") then Some (sg * v)%Z else None.

Definition pow10 (e : Z) : Q := Qpower 10 e.

Definition exponent (s : string) : option Z :=
  match s with
  | EmptyString => Some 0%Z
  | String c s' =>
      if bool_decide (c = "e"%char) || bool_decide (c = "E"%char) then
        let '(sg, s1) := sign s' in
        let '(v, n, rest) := digits s1 0 0 in
        if (0 <? n)%nat && bool_decide (rest = "") then Some (sg * v)%Z else None
      else None
  end.

Definition parse_float (s : string) : option Q :=
  let '(sg, s1) := sign s in
  let '(ip, ni, s2) := digits s1 0 0 in
  let '(fp, nf, s3) := match s2 with
                       | String "." s' => digits s' 0 0
                       | _ => (0%Z, 0%nat, s2)
                       end in
  if (ni + nf =? 0)%nat then None
  else
    let mant := (inject_Z sg * (inject_Z ip + inject_Z fp / pow10 (Z.of_nat nf)))%Q in
    e ← exponent s3;
    Some (Qred (mant * pow10 e)).
End Decimal.

Definition decimal_parsers : PyParsers :=
  {| py_float := Decimal.parse_float; py_int := Decimal.parse_int |}.

(** A CSV row given by its columns. *)
Definition csv_row (cols : list (string * string)) : gmap string pyval :=
  list_to_map (prod_map id PStr <$> cols).

(** ** validation_results/analyze_results.py *)

Module AnalyzeResults.

Record BenchmarkResult := {
  case_name : pyval;
  load_time_ms : Q;
  solve_time_ms : Q;
  total_time_ms : Q;
  converged : bool;
  iterations : Z;
  num_buses : Z;
  num_branches : Z;
  num_gens : Z;
  objective_value : Q;
  baseline_objective : Q;
  objective_gap_abs : Q;
  objective_gap_rel : Q;
  max_vm_violation_pu : Q;
  max_gen_p_violation_mw : Q;
  max_branch_flow_violation_mva : Q
}.

(** [statistics.mean], [statistics.median], [max] and [min] on a list of
    numbers. *)
Definition mean (data : list Q) : res Q :=
  if bool_decide (data = []) then Raise StatisticsError
  else py_div (sum data) (nat_Q (length data)).

Definition median (data : list Q) : res Q :=
  let data := sorted Qle_bool data in
  let n := length data in
  if (n =? 0)%nat then Raise StatisticsError
  else if (n mod 2 =? 1)%nat then index data (n / 2)
  else
    let i := (n / 2)%nat in
    a ← index data (i - 1);
    b ← index data i;
    py_div (a + b) 2.

Definition max (xs : list Q) : res Q :=
  match xs with
  | [] => Raise ValueError
  | x :: xs' => Ok (fold_left (λ m y, if Qgt_bool y m then y else m) xs' x)
  end.

Definition min (xs : list Q) : res Q :=
  match xs with
  | [] => Raise ValueError
  | x :: xs' => Ok (fold_left (λ m y, if Qgt_bool m y then y else m) xs' x)
  end.

Section Script.
Context `{PyParsers}.
Variable fs : gmap string (list (gmap string pyval)).

(** One row of the loop of [load_results] (lines 42-59). *)
Definition load_row (row : gmap string pyval) : res BenchmarkResult :=
  case_name ← getitem row "case_name";
  load_time_ms ← getitem row "load_time_ms" ≫= float;
  solve_time_ms ← getitem row "solve_time_ms" ≫= float;
  total_time_ms ← getitem row "total_time_ms" ≫= float;
  converged ← getitem row "converged" ≫= py_lower;
  iterations ← getitem row "iterations" ≫= int;
  num_buses ← getitem row "num_buses" ≫= int;
  num_branches ← getitem row "num_branches" ≫= int;
  num_gens ← getitem row "num_gens" ≫= int;
  objective_value ← getitem row "objective_value" ≫= float;
  baseline_objective ← getitem row "baseline_objective" ≫= float;
  objective_gap_abs ← getitem row "objective_gap_abs" ≫= float;
  objective_gap_rel ← getitem row "objective_gap_rel" ≫= float;
  max_vm_violation_pu ← getitem row "max_vm_violation_pu" ≫= float;
  max_gen_p_violation_mw ← getitem row "max_gen_p_violation_mw" ≫= float;
  max_branch_flow_violation_mva ← getitem row "max_branch_flow_violation_mva" ≫= float;
  Ok {| case_name := case_name;
        load_time_ms := load_time_ms;
        solve_time_ms := solve_time_ms;
        total_time_ms := total_time_ms;
        converged := bool_decide (converged = "true");
        iterations := iterations;
        num_buses := num_buses;
        num_branches := num_branches;
        num_gens := num_gens;
        objective_value := objective_value;
        baseline_objective := baseline_objective;
        objective_gap_abs := objective_gap_abs;
        objective_gap_rel := objective_gap_rel;
        max_vm_violation_pu := max_vm_violation_pu;
        max_gen_p_violation_mw := max_gen_p_violation_mw;
        max_branch_flow_violation_mva := max_branch_flow_violation_mva |}.

Definition load_results (filepath : string) : res (list BenchmarkResult) :=
  match fs !! filepath with
  | None => Raise FileNotFoundError
  | Some rows =>
      foldE (λ results row, r ← load_row row; Ok (results ++ [r])) [] rows
  end.
End Script.

Definition analyze_method (name : string) (results : list BenchmarkResult)
  : res (gmap string statval) :=
  if bool_decide (results = []) then Ok ∅
  else
    let converged := List.filter converged results in
    let with_baseline :=
      List.filter (λ r, Qgt_bool (baseline_objective r) 0) converged in
    rate ← py_div (nat_Q (length converged)) (nat_Q (length results));
    let stats : gmap string statval :=
      <["convergence_rate" := SFloat (rate * 100)]>
      (<["converged" := SInt (Z.of_nat (length converged))]>
      (<["total_cases" := SInt (Z.of_nat (length results))]>
      (<["method" := SStr name]> ∅))) in
    stats ←
      (if bool_decide (converged ≠ []) then
         let solve_times := solve_time_ms <$> converged in
         x ← mean solve_times;
         let stats := <["solve_time_mean_ms" := SFloat x]> stats in
         x ← median solve_times;
         let stats := <["solve_time_median_ms" := SFloat x]> stats in
         x ← max solve_times;
         let stats := <["solve_time_max_ms" := SFloat x]> stats in
         x ← mean ((λ r, inject_Z (iterations r)) <$> converged);
         Ok (<["iterations_mean" := SFloat x]> stats)
       else Ok stats);
    stats ←
      (if bool_decide (with_baseline ≠ []) then
         (* Convert to percentage *)
         let gaps := (λ r, objective_gap_rel r * 100)%Q <$> with_baseline in
         x ← mean gaps;
         let stats := <["objective_gap_mean_pct" := SFloat x]> stats in
         x ← median gaps;
         let stats := <["objective_gap_median_pct" := SFloat x]> stats in
         x ← max gaps;
         let stats := <["objective_gap_max_pct" := SFloat x]> stats in
         x ← min gaps;
         Ok (<["objective_gap_min_pct" := SFloat x]> stats)
       else Ok stats);
    (* Violation stats *)
    let vm_violations := max_vm_violation_pu <$> converged in
    let gen_violations := max_gen_p_violation_mw <$> converged in
    let branch_violations := max_branch_flow_violation_mva <$> converged in
    x ← (if bool_decide (vm_violations ≠ []) then SFloat <$> max vm_violations
         else Ok (SInt 0));
    let stats := <["vm_violation_max_pu" := x]> stats in
    x ← (if bool_decide (gen_violations ≠ []) then SFloat <$> max gen_violations
         else Ok (SInt 0));
    let stats := <["gen_violation_max_mw" := x]> stats in
    x ← (if bool_decide (branch_violations ≠ []) then SFloat <$> max branch_violations
         else Ok (SInt 0));
    let stats := <["branch_violation_max_mva" := x]> stats in
    (* Count cases with violations *)
    let stats :=
      <["cases_with_vm_violation" :=
          SInt (Z.of_nat (length (List.filter (λ v, Qgt_bool v 1e-6) vm_violations)))]>
        stats in
    let stats :=
      <["cases_with_branch_violation" :=
          SInt (Z.of_nat (length (List.filter (λ v, Qgt_bool v 1e-3) branch_violations)))]>
        stats in
    Ok stats.

(** [stats[key]] and [stats.get(key, 0)] *)
Definition stat (stats : gmap string statval) (key : string) : res statval :=
  match stats !! key with
  | Some v => Ok v
  | None => Raise KeyError
  end.

Definition stat_get (stats : gmap string statval) (key : string) : statval :=
  default (SInt 0) (stats !! key).

Definition print_summary_table (all_stats : list (gmap string statval)) : M unit :=
  print (Text (nl +:+ rule 80));;
  print (Text "SUMMARY STATISTICS");;
  print (Text (rule 80));;
  print (Text "Method     Conv.    Rate%    Obj Gap%     Time(ms)     VM Viol    Flow Viol ");;
  print (Text (repeat_string "-" 80));;
  for_each all_stats (λ stats,
    if bool_decide (stats = ∅) then mret tt
    else
      method ← eval (stat stats "method");
      conv ← eval (stat stats "converged");
      total ← eval (stat stats "total_cases");
      rate ← eval (stat stats "convergence_rate");
      print (LSummaryRow method conv total rate
               (stat_get stats "objective_gap_mean_pct")
               (stat_get stats "solve_time_mean_ms")
               (stat_get stats "vm_violation_max_pu")
               (stat_get stats "branch_violation_max_mva")));;
  print (Text (rule 80)).

Definition print_latex_table (all_stats : list (gmap string statval)) : M unit :=
  print (Text (nl +:+ "% LaTeX table for paper"));;
  print (Text "\begin{table}[h]");;
  print (Text "\centering");;
  print (Text "\caption{PGLib-OPF Validation Results}");;
  print (Text "\label{tab:validation}");;
  print (Text "\begin{tabular}{lrrrrr}");;
  print (Text "\toprule");;
  print (Text "Method & Conv. & Gap (\%) & Time (ms) & VM Viol & Flow Viol \\");;
  print (Text "\midrule");;
  for_each all_stats (λ stats,
    if bool_decide (stats = ∅) then mret tt
    else
      method ← eval (stat stats "method");
      conv ← eval (stat stats "converged");
      total ← eval (stat stats "total_cases");
      print (LLatexRow method conv total
               (stat_get stats "objective_gap_mean_pct")
               (stat_get stats "solve_time_mean_ms")
               (stat_get stats "vm_violation_max_pu")
               (stat_get stats "branch_violation_max_mva")));;
  print (Text "\bottomrule");;
  print (Text "\end{tabular}");;
  print (Text "\end{table}").

Section Main.
Context `{PyParsers}.
Variable fs : gmap string (list (gmap string pyval)).

(** The body of the loop over the methods (lines 170-186); the state is
    [all_stats]. *)
Definition main_step (all_stats : list (gmap string statval))
    (method : string * string) : M (list (gmap string statval)) :=
  let '(method_name, filepath) := method in
  if bool_decide (is_Some (fs !! filepath)) then
    print (Text (nl +:+ rule 40));;
    print (LLoading method_name filepath);;
    results ← eval (load_results fs filepath);
    print (LLoaded (length results));;
    stats ← eval (analyze_method method_name results);
    let all_stats := all_stats ++ [stats] in
    (* Print per-case breakdown for small cases *)
    print (Text (nl +:+ "Sample cases (first 5):"));;
    for_each (take 5 results) (λ r,
      let gap_str := if Qgt_bool (baseline_objective r) 0
                     then Some (objective_gap_rel r * 100)%Q else None in
      print (LSample (case_name r) (objective_value r) gap_str (solve_time_ms r)));;
    mret all_stats
  else
    print (LFileNotFound method_name filepath);;
    mret all_stats.

(** [results_dir] is the directory of the script. *)
Definition main (results_dir : string) : M unit :=
  let methods := [("DC-OPF", path_join results_dir "pglib_dc.csv");
                  ("SOCP", path_join results_dir "pglib_socp.csv");
                  ("AC-OPF", path_join results_dir "pglib_ac.csv")] in
  all_stats ← foldM main_step [] methods;
  print_summary_table all_stats;;
  print_latex_table all_stats.
End Main.
End AnalyzeResults.

(** ** examples/scripts/parse_baseline.py *)

(** [re.search(pattern, line, re.IGNORECASE)] for the pattern of
    [parse_baseline]: the groups 1 and 2 of the leftmost match. *)
Class BaselinePattern := {
  re_search : string → option (string * string)
}.

Inductive cell :=
  | CellStr (s : string)
  | CellFloat (x : Q).

Module ParseBaseline.
Section Script.
Context `{PyParsers} `{BaselinePattern}.
(** The text files, as the lines that iterating over them yields. *)
Variable files : gmap string (list string).

(** The body of the loop over the lines (lines 17-22). *)
Definition baseline_step (results : gmap string Q) (ln : string)
  : res (gmap string Q) :=
  match re_search ln with
  | Some (case_name, group2) =>
      ac_cost ← float (PStr group2);
      Ok (<[case_name := ac_cost]> results)
  | None => Ok results
  end.

(** [sorted(results.keys())] *)
Definition sorted_keys (results : gmap string Q) : list string :=
  sorted String.leb (map_to_list results).*1.

(** The rows handed to [writer.writerow] (lines 27-29). *)
Definition csv_rows (results : gmap string Q) : res (list (list cell)) :=
  rows ← list_comp (sorted_keys results) always (λ case_name,
            match results !! case_name with
            | Some v => Ok [CellStr case_name; CellFloat v]
            | None => Raise KeyError
            end);
  Ok ([CellStr "case_name"; CellStr "ac_objective"] :: rows).

(** The result is the dictionary returned and the rows written to
    [output_csv]. *)
Definition parse_baseline (baseline_md output_csv : string)
  : M (gmap string Q * list (list cell)) :=
  lines ← eval (match files !! baseline_md with
                | Some lines => Ok lines
                | None => Raise FileNotFoundError
                end);
  results ← eval (foldE baseline_step ∅ lines);
  written ← eval (csv_rows results);
  print (LExtracted (size results) output_csv);;
  mret (results, written).
End Script.
End ParseBaseline.

(** A matcher for the pattern on ASCII lines. Every repetition of the
    pattern is followed by a character outside its class, so the greedy
    scan needs no backtracking. *)
Module Pattern.
Definition between (lo hi : nat) (c : ascii) : bool :=
  let n := nat_of_ascii c in (lo <=? n)%nat && (n <=? hi)%nat.

Definition is_space (c : ascii) : bool := between 9 13 c || between 28 32 c.
Definition is_digit (c : ascii) : bool := between 48 57 c.
Definition is_word (c : ascii) : bool :=
  between 97 122 c || between 65 90 c || bool_decide (c = "_"%char).
Definition is_num (c : ascii) : bool :=
  is_digit c || bool_decide (c ∈ ["."; "e"; "E"; "+"; "-"]%char).

(** The longest prefix whose characters satisfy [p], and the rest. *)
Fixpoint span (p : ascii → bool) (s : string) : string * string :=
  match s with
  | String c s' =>
      if p c then let '(a, b) := span p s' in (String c a, b) else ("", s)
  | EmptyString => ("", "")
  end.

Definition pipe (s : string) : option string :=
  match s with
  | String "|" s' => Some s'
  | _ => None
  end.

(** A literal, compared without case; the text matched and the rest. *)
Fixpoint literal (lit s : string) : option (string * string) :=
  match lit, s with
  | EmptyString, _ => Some ("", s)
  | String a lit', String c s' =>
      if bool_decide (lower_ascii a = lower_ascii c)
      then '(m, rest) ← literal lit' s'; Some (String c m, rest)
      else None
  | _, _ => None
  end.

(** [\s*cls+\s*\|]: the text of [cls+] and the rest. *)
Definition column (cls : ascii → bool) (s : string) : option (string * string) :=
  let '(_, s) := span is_space s in
  let '(text, s) := span cls s in
  if bool_decide (text = "") then None
  else
    let '(_, s) := span is_space s in
    rest ← pipe s; Some (text, rest).

Definition match_here (s : string) : option (string * string) :=
  s ← pipe s;
  let '(_, s) := span is_space s in
  '(prefix, s) ← literal "pglib_opf_case" s;
  let '(ds, s) := span is_digit s in
  if bool_decide (ds = "") then None
  else
    let '(ws, s) := span is_word s in
    let '(_, s) := span is_space s in
    s ← pipe s;
    '(_, s) ← column is_digit s;
    '(_, s) ← column is_digit s;
    '(_, s) ← column is_num s;
    '(group2, _) ← column is_num s;
    Some (prefix +:+ ds +:+ ws, group2).

Fixpoint search (s : string) : option (string * string) :=
  match match_here s with
  | Some groups => Some groups
  | None =>
      match s with
      | String _ s' => search s'
      | EmptyString => None
      end
  end.
End Pattern.

Definition ascii_pattern : BaselinePattern := {| re_search := Pattern.search |}.

(** ** Concrete inputs *)

Module Examples.
Import AnalyzeResults.

(** A row of a suite file. *)
Definition suite_row (converged solve_time objective baseline gap buses : string)
  : gmap string pyval :=
  csv_row [("converged", converged); ("solve_time_ms", solve_time);
           ("objective_value", objective); ("baseline_objective", baseline);
           ("objective_gap_rel", gap); ("num_buses", buses)].

(** Two converged rows (solve times 10.0 and 30.0, gaps 0.05 and 0.15)
    and one row that did not converge. *)
Definition three_rows : list (gmap string pyval) :=
  [suite_row "true" "10.0" "575.0" "576.89" "0.05" "30";
   suite_row "true" "30.0" "41.7" "41.5" "0.15" "2000";
   suite_row "false" "0.0" "0.0" "12.5" "0.0" "600"].

Definition fs_pglib : gmap string (list (gmap string pyval)) :=
  {["results/pglib_full.csv" := three_rows]}.

Definition fs_opfdata : gmap string (list (gmap string pyval)) :=
  {["results/opfdata_case118.csv" := three_rows]}.

(** Only one of the nine files of the contingency sweep. *)
Definition fs_one_of_nine : gmap string (list (gmap string pyval)) :=
  {["results/pfdelta_case30_n.csv" :=
      [suite_row "true" "5.0" "1.0" "1.0" "0.0" "30";
       suite_row "true" "7.0" "1.0" "1.0" "0.0" "30"]]}.

(** A result of the method comparison. *)
Definition result (converged : bool) (solve_time baseline gap vm flow : Q)
  : BenchmarkResult :=
  {| case_name := PStr "pglib_opf_case30_ieee";
     load_time_ms := 1; solve_time_ms := solve_time; total_time_ms := 1 + solve_time;
     converged := converged; iterations := 7;
     num_buses := 30; num_branches := 41; num_gens := 6;
     objective_value := 575; baseline_objective := baseline;
     objective_gap_abs := 0; objective_gap_rel := gap;
     max_vm_violation_pu := vm; max_gen_p_violation_mw := 0;
     max_branch_flow_violation_mva := flow |}.

Definition two_results : list BenchmarkResult :=
  [result true 10 576.89 0.05 0 0; result true 30 41.5 0.15 0 0].
End Examples.

(** ** The statistics in the words of the specification *)

(** [sorted(seq)[len(seq)//2]] *)
Definition upper_median (seq : list Q) : option Q :=
  sorted Qle_bool seq !! (length seq / 2)%nat.

(** [sorted(seq)[floor(len(seq)*p/100)]] *)
Definition percentile (seq : list Q) (p : nat) : option Q :=
  sorted Qle_bool seq !! (length seq * p / 100)%nat.

(** The entry of the statistics dictionary for a statistic: the key is
    absent when the statistic is undefined. *)
Definition stat_of (r : res Q) : option statval :=
  match r with
  | Ok x => Some (SFloat x)
  | Raise _ => None
  end.

(** * Properties *)

(** ** The monads *)

Lemma printed_bind {A B} (m : M A) (f : A → M B) :
  printed (m ≫= f) =
  printed m ++ match outcome m with
               | Ok a => printed (f a)
               | Raise _ => []
               end.
Proof.
  unfold mbind, M_bind. destruct (outcome m); simpl; [done|].
  by rewrite app_nil_r.
Qed.

Lemma outcome_bind {A B} (m : M A) (f : A → M B) :
  outcome (m ≫= f) = outcome m ≫= λ a, outcome (f a).
Proof. unfold mbind at 1, M_bind. by destruct (outcome m). Qed.

Lemma printed_bind_l {A B} (m : M A) (f : A → M B) l :
  l ∈ printed m → l ∈ printed (m ≫= f).
Proof. rewrite printed_bind, elem_of_app. auto. Qed.

Lemma printed_bind_r {A B} (m : M A) (f : A → M B) a l :
  outcome m = Ok a → l ∈ printed (f a) → l ∈ printed (m ≫= f).
Proof. intros Hm Hl. rewrite printed_bind, Hm, elem_of_app. auto. Qed.

Lemma bind_Ok {A B} (m : res A) (f : A → res B) b :
  m ≫= f = Ok b ↔ ∃ a, m = Ok a ∧ f a = Ok b.
Proof.
  destruct m as [a|e]; simpl; split.
  - eauto.
  - by intros (? & [= <-] & ?).
  - done.
  - by intros (? & ? & ?).
Qed.

Lemma fmap_Ok {A B} (g : A → B) (m : res A) b :
  g <$> m = Ok b ↔ ∃ a, m = Ok a ∧ b = g a.
Proof.
  destruct m as [a|e]; simpl; split.
  - intros [= <-]. eauto.
  - by intros (? & [= <-] & ->).
  - done.
  - by intros (? & ? & ?).
Qed.

(** ** Comprehensions *)

Lemma list_comp_length {A B} (xs : list A) p (f : A → res B) ys :
  list_comp xs p f = Ok ys → length ys ≤ length xs.
Proof.
  revert ys. induction xs as [|x xs IH]; intros ys; simpl.
  - intros [= <-]. done.
  - destruct (p x) as [[]|]; simpl; [| |done].
    + destruct (f x); simpl; [|done].
      destruct (list_comp xs p f) as [zs|]; simpl; [|done].
      intros [= <-]. simpl. specialize (IH zs eq_refl). lia.
    + intros Hys. specialize (IH ys Hys). lia.
Qed.

(** A comprehension whose condition and element do not raise is a filter
    followed by a map. *)
Lemma list_comp_pure {A B} (xs : list A) p f (pb : A → bool) (fb : A → B) :
  Forall (λ x, p x = Ok (pb x)) xs →
  Forall (λ x, pb x = true → f x = Ok (fb x)) xs →
  list_comp xs p f = Ok (fb <$> List.filter pb xs).
Proof.
  induction 1 as [|x xs Hp _ IH]; intros Hf; [done|].
  apply Forall_cons in Hf as [Hfx Hf]. simpl. rewrite Hp. simpl.
  destruct (pb x); [|by apply IH].
  rewrite Hfx by done. simpl. by rewrite IH.
Qed.

Lemma list_comp_always_length {A B} (xs : list A) (f : A → res B) ys :
  list_comp xs always f = Ok ys → length ys = length xs.
Proof.
  revert ys. induction xs as [|x xs IH]; intros ys; simpl.
  - by intros [= <-].
  - destruct (f x); simpl; [|done].
    destruct (list_comp xs always f) as [zs|]; simpl; [|done].
    intros [= <-]. simpl. by rewrite (IH zs).
Qed.

(** ** [sorted] *)

Lemma Sorted_weaken {A} (R R' : A → A → Prop) l :
  (∀ x y, R x y → R' x y) → Sorted R l → Sorted R' l.
Proof.
  intros HR. induction 1 as [|x l _ IH Hx]; constructor; [done|].
  destruct Hx; constructor. by apply HR.
Qed.

Section SortedFacts.
Context {A : Type} (leb : A → A → bool).

Lemma insert_sorted_Permutation x l : insert_sorted leb x l ≡ₚ x :: l.
Proof.
  induction l as [|y l IH]; simpl; [done|].
  destruct (leb x y); [done|]. rewrite IH. apply Permutation_swap.
Qed.

Lemma sorted_Permutation l : sorted leb l ≡ₚ l.
Proof.
  induction l as [|x l IH]; simpl; [done|].
  by rewrite insert_sorted_Permutation, IH.
Qed.

Lemma sorted_length l : length (sorted leb l) = length l.
Proof. by rewrite sorted_Permutation. Qed.

Lemma sorted_nil_inv l : sorted leb l = [] → l = [].
Proof.
  intros Hl. apply nil_length_inv. by rewrite <-sorted_length, Hl.
Qed.

Context (leb_total : ∀ x y, leb x y = true ∨ leb y x = true).

Lemma insert_sorted_Sorted x l :
  Sorted (λ a b, leb a b = true) l →
  Sorted (λ a b, leb a b = true) (insert_sorted leb x l).
Proof.
  induction 1 as [|y l Hl IH Hy]; simpl.
  - by repeat constructor.
  - destruct (leb x y) eqn:Hxy.
    + by repeat constructor.
    + constructor; [done|].
      destruct Hy as [|z l Hyz]; simpl.
      * constructor. by destruct (leb_total x y); [congruence|].
      * destruct (leb x z); constructor; [|done].
        by destruct (leb_total x y); [congruence|].
Qed.

Lemma sorted_Sorted l : Sorted (λ a b, leb a b = true) (sorted leb l).
Proof.
  induction l; simpl; [constructor|]. by apply insert_sorted_Sorted.
Qed.
End SortedFacts.

Lemma Qle_bool_total x y : Qle_bool x y = true ∨ Qle_bool y x = true.
Proof.
  rewrite !Qle_bool_iff. destruct (Qlt_le_dec x y); [left|right]; [|done].
  by apply Qlt_le_weak.
Qed.

(** [sorted] orders a list of numbers ascending. *)
Lemma sorted_Q_Sorted (l : list Q) : Sorted Qle (sorted Qle_bool l).
Proof.
  eapply Sorted_weaken; [|apply sorted_Sorted, Qle_bool_total].
  intros x y. apply Qle_bool_iff.
Qed.

Lemma index_lt {A} (xs : list A) i :
  i < length xs → ∃ x, index xs i = Ok x ∧ xs !! i = Some x.
Proof.
  intros Hi. unfold index.
  destruct (lookup_lt_is_Some_2 xs i Hi) as [x ->]. eauto.
Qed.

Lemma index_Ok {A} (xs : list A) i x : index xs i = Ok x ↔ xs !! i = Some x.
Proof. unfold index. destruct (xs !! i); naive_solver. Qed.

Lemma half_lt n : 0 < n → n / 2 < n.
Proof. intros. apply Nat.div_lt; lia. Qed.

Lemma nat_Q_nonzero n : 0 < n → Qeq_bool (nat_Q n) 0 = false.
Proof.
  intros Hn. destruct (Qeq_bool (nat_Q n) 0) eqn:Heq; [|done].
  apply Qeq_bool_eq in Heq. unfold nat_Q, Qeq in Heq. simpl in Heq. lia.
Qed.

Lemma py_div_nat a n : 0 < n → py_div a (nat_Q n) = Ok (a / nat_Q n)%Q.
Proof. intros Hn. unfold py_div. by rewrite nat_Q_nonzero. Qed.

Lemma eval_bind {A B} (a : A) (f : A → M B) : eval (Ok a) ≫= f = f a.
Proof. unfold mbind, M_bind. simpl. by destruct (f a). Qed.

Lemma eval_raise_bind {A B} e (f : A → M B) :
  eval (Raise e) ≫= f = MkM [] (Raise e).
Proof. done. Qed.

Lemma mret_bind {A B} (a : A) (f : A → M B) : mret a ≫= f = f a.
Proof. apply eval_bind. Qed.

Lemma print_bind {B} l (f : unit → M B) : print l ≫= f = prepend [l] (f tt).
Proof. done. Qed.

Lemma MkM_bind {A B} out (a : A) (f : A → M B) :
  MkM out (Ok a) ≫= f = prepend out (f a).
Proof. done. Qed.

Lemma block_bind {A B} (m : M A) (f : A → M B) a :
  outcome m = Ok a → m ≫= f = prepend (printed m) (f a).
Proof. intros Hm. unfold mbind, M_bind. by rewrite Hm. Qed.

Lemma prepend_nil {A} (m : M A) : prepend [] m = m.
Proof. by destruct m. Qed.

Lemma prepend_prepend {A} out1 out2 (m : M A) :
  prepend out1 (prepend out2 m) = prepend (out1 ++ out2) m.
Proof. unfold prepend. simpl. by rewrite app_assoc. Qed.

Lemma prepend_ret {A} out (a : A) : prepend out (mret a) = MkM out (Ok a).
Proof. unfold prepend. simpl. by rewrite app_nil_r. Qed.

Lemma prepend_MkM {A} out1 out2 (r : res A) :
  prepend out1 (MkM out2 r) = MkM (out1 ++ out2) r.
Proof. done. Qed.

Lemma nonempty_length {A} (l : list A) : l ≠ [] ↔ 0 < length l.
Proof. destruct l; simpl; split; (done || lia). Qed.

Lemma index_last_Ok {A} (xs : list A) : xs ≠ [] → ∃ x, index_last xs = Ok x.
Proof.
  intros Hxs. unfold index_last. destruct (last xs) eqn:Hlast; [eauto|].
  by apply last_None in Hlast.
Qed.

Lemma upper_median_is_Some seq : seq ≠ [] → is_Some (upper_median seq).
Proof.
  intros Hseq. apply lookup_lt_is_Some_2. rewrite sorted_length.
  by apply half_lt, nonempty_length.
Qed.

Lemma sorted_nonempty {A} (leb : A → A → bool) l : l ≠ [] → sorted leb l ≠ [].
Proof. intros Hl Hs. by apply Hl, (sorted_nil_inv leb). Qed.

(** ** The suite drivers, run on well-formed input *)

Section Drivers.
Context `{PyParsers}.
Variable fs : gmap string (list (gmap string pyval)).
Import AnalyzeBenchmarks.

Lemma pglib_solve_times_nil : pglib_solve_times [] = mret tt.
Proof. done. Qed.

Lemma pglib_solve_times_run st :
  st ≠ [] →
  ∃ m lo hi,
    st !! (length st / 2)%nat = Some m ∧
    pglib_solve_times st =
      MkM [LSolveTime m (sum st / nat_Q (length st)); LMinMax lo hi] (Ok tt).
Proof.
  intros Hst. pose proof (proj1 (nonempty_length st) Hst) as Hlen.
  destruct (index_lt st (length st / 2)) as (m & Hm & Hm'); [by apply half_lt|].
  destruct (index_lt st 0) as (lo & Hlo & _); [done|].
  destruct (index_last_Ok st Hst) as [hi Hhi].
  exists m, lo, hi. split; [done|].
  unfold pglib_solve_times. rewrite bool_decide_true by done.
  rewrite Hm, eval_bind, py_div_nat, eval_bind by done.
  by rewrite print_bind, Hlo, eval_bind, Hhi, eval_bind.
Qed.

Lemma pglib_gaps_run gs :
  gs ≠ [] →
  ∃ g lo hi,
    gs !! (length gs / 2)%nat = Some g ∧
    pglib_gaps gs =
      MkM [LObjGap (g * 100) (sum gs / nat_Q (length gs) * 100);
           LGapMinMax (lo * 100) (hi * 100)] (Ok tt).
Proof.
  intros Hgs. pose proof (proj1 (nonempty_length gs) Hgs) as Hlen.
  destruct (index_lt gs (length gs / 2)) as (g & Hg & Hg'); [by apply half_lt|].
  destruct (index_lt gs 0) as (lo & Hlo & _); [done|].
  destruct (index_last_Ok gs Hgs) as [hi Hhi].
  exists g, lo, hi. split; [done|].
  unfold pglib_gaps. rewrite bool_decide_true by done.
  rewrite Hg, eval_bind, py_div_nat, eval_bind by done.
  by rewrite print_bind, Hlo, eval_bind, Hhi, eval_bind.
Qed.

Lemma pglib_solve_times_returns st : outcome (pglib_solve_times st) = Ok tt.
Proof.
  destruct (decide (st = [])) as [->|Hst]; [done|].
  by destruct (pglib_solve_times_run st Hst) as (? & ? & ? & _ & ->).
Qed.

Lemma pglib_gaps_returns gs : outcome (pglib_gaps gs) = Ok tt.
Proof.
  destruct (decide (gs = [])) as [->|Hgs]; [done|].
  by destruct (pglib_gaps_run gs Hgs) as (? & ? & ? & _ & ->).
Qed.

(** [analyze_pglib] on a file whose rows it can read. *)
Lemma analyze_pglib_run dir data conv times gaps :
  fs !! path_join dir "pglib_full.csv" = Some data →
  data ≠ [] →
  list_comp data is_converged Ok = Ok conv →
  list_comp conv always solve_time_of = Ok times →
  list_comp conv objective_positive gap_rel_of = Ok gaps →
  analyze_pglib fs dir =
    prepend
      ([Text (nl +:+ rule 60); Text "PGLib-OPF Benchmark Results"; Text (rule 60);
        LConvergence (length conv) (length data)
          (100 * nat_Q (length conv) / nat_Q (length data))]
       ++ printed (pglib_solve_times (sorted Qle_bool times))
       ++ printed (pglib_gaps (sorted Qle_bool gaps)))
      (pglib_sizes conv).
Proof.
  intros Hfs Hdata%nonempty_length Hconv Htimes Hgaps.
  unfold analyze_pglib, exists_path, load_csv. rewrite Hfs.
  rewrite bool_decide_true by eauto. simpl negb. cbv iota.
  rewrite eval_bind, !print_bind, Hconv, eval_bind.
  rewrite py_div_nat, eval_bind, print_bind by done.
  rewrite Htimes. simpl fmap. rewrite eval_bind.
  rewrite (block_bind _ _ tt) by apply pglib_solve_times_returns.
  rewrite Hgaps. simpl fmap. rewrite eval_bind.
  rewrite (block_bind _ _ tt) by apply pglib_gaps_returns.
  by rewrite !prepend_prepend.
Qed.

Lemma opfdata_solve_times_run st :
  st ≠ [] →
  ∃ m p10 p90,
    st !! (length st / 2)%nat = Some m ∧
    st !! (length st / 10)%nat = Some p10 ∧
    st !! (9 * length st / 10)%nat = Some p90 ∧
    opfdata_solve_times st =
      MkM [LSolveTime m (sum st / nat_Q (length st)); LTimeP10P90 p10 p90] (Ok tt).
Proof.
  intros Hst. pose proof (proj1 (nonempty_length st) Hst) as Hlen.
  destruct (index_lt st (length st / 2)) as (m & Hm & Hm'); [by apply half_lt|].
  destruct (index_lt st (length st / 10)) as (p10 & Hp10 & Hp10').
  { apply Nat.div_lt; lia. }
  destruct (index_lt st (9 * length st / 10)) as (p90 & Hp90 & Hp90').
  { apply Nat.Div0.div_lt_upper_bound; lia. }
  exists m, p10, p90. split_and!; [done..|].
  unfold opfdata_solve_times. rewrite bool_decide_true by done.
  rewrite Hm, eval_bind, py_div_nat, eval_bind by done.
  by rewrite print_bind, Hp10, eval_bind, Hp90, eval_bind.
Qed.

Lemma opfdata_gaps_run gs :
  gs ≠ [] →
  ∃ g p10 p90,
    gs !! (length gs / 2)%nat = Some g ∧
    gs !! (length gs / 10)%nat = Some p10 ∧
    gs !! (9 * length gs / 10)%nat = Some p90 ∧
    opfdata_gaps gs =
      MkM [LObjGap (g * 100) (sum gs / nat_Q (length gs) * 100);
           LGapP10P90 (p10 * 100) (p90 * 100)] (Ok tt).
Proof.
  intros Hgs. pose proof (proj1 (nonempty_length gs) Hgs) as Hlen.
  destruct (index_lt gs (length gs / 2)) as (g & Hg & Hg'); [by apply half_lt|].
  destruct (index_lt gs (length gs / 10)) as (p10 & Hp10 & Hp10').
  { apply Nat.div_lt; lia. }
  destruct (index_lt gs (9 * length gs / 10)) as (p90 & Hp90 & Hp90').
  { apply Nat.Div0.div_lt_upper_bound; lia. }
  exists g, p10, p90. split_and!; [done..|].
  unfold opfdata_gaps. rewrite bool_decide_true by done.
  rewrite Hg, eval_bind, py_div_nat, eval_bind by done.
  by rewrite print_bind, Hp10, eval_bind, Hp90, eval_bind.
Qed.

Lemma opfdata_solve_times_returns st : outcome (opfdata_solve_times st) = Ok tt.
Proof.
  destruct (decide (st = [])) as [->|Hst]; [done|].
  by destruct (opfdata_solve_times_run st Hst) as (? & ? & ? & _ & _ & _ & ->).
Qed.

Lemma opfdata_gaps_returns gs : outcome (opfdata_gaps gs) = Ok tt.
Proof.
  destruct (decide (gs = [])) as [->|Hgs]; [done|].
  by destruct (opfdata_gaps_run gs Hgs) as (? & ? & ? & _ & _ & _ & ->).
Qed.

(** [analyze_opfdata] on a file whose rows it can read. *)
Lemma analyze_opfdata_run dir data conv times gaps :
  fs !! path_join dir "opfdata_case118.csv" = Some data →
  data ≠ [] →
  list_comp data is_converged Ok = Ok conv →
  list_comp conv always solve_time_of = Ok times →
  list_comp conv always gap_rel_of = Ok gaps →
  analyze_opfdata fs dir =
    prepend
      ([Text (nl +:+ rule 60); Text "OPFData AC-OPF Benchmark Results (case118)";
        Text (rule 60);
        LConvergence (length conv) (length data)
          (100 * nat_Q (length conv) / nat_Q (length data))]
       ++ printed (opfdata_solve_times (sorted Qle_bool times)))
      (opfdata_gaps (sorted Qle_bool gaps)).
Proof.
  intros Hfs Hdata%nonempty_length Hconv Htimes Hgaps.
  unfold analyze_opfdata, exists_path, load_csv. rewrite Hfs.
  rewrite bool_decide_true by eauto. simpl negb. cbv iota.
  rewrite eval_bind, !print_bind, Hconv, eval_bind.
  rewrite py_div_nat, eval_bind, print_bind by done.
  rewrite Htimes. simpl fmap. rewrite eval_bind.
  rewrite (block_bind _ _ tt) by apply opfdata_solve_times_returns.
  rewrite Hgaps. simpl fmap. rewrite eval_bind.
  by rewrite !prepend_prepend.
Qed.

Lemma pfdelta_overall_run all :
  all ≠ [] →
  ∃ m, upper_median all = Some m ∧
       pfdelta_overall all =
         MkM [LOverall m (sum (sorted Qle_bool all) / nat_Q (length all))] (Ok tt).
Proof.
  intros Hall. pose proof (proj1 (nonempty_length all) Hall) as Hlen.
  destruct (upper_median_is_Some all Hall) as [m Hm]. exists m. split; [done|].
  unfold pfdelta_overall. rewrite bool_decide_true by done.
  unfold upper_median in Hm. apply index_Ok in Hm.
  rewrite sorted_length, Hm, eval_bind, py_div_nat, eval_bind by done. done.
Qed.

Lemma pfdelta_overall_returns all : outcome (pfdelta_overall all) = Ok tt.
Proof.
  destruct (decide (all = [])) as [->|Hall]; [done|].
  by destruct (pfdelta_overall_run all Hall) as (? & _ & ->).
Qed.

(** The LaTeX line of a suite with at least one solve time and one gap. *)
Lemma latex_pglib_run dir data conv times gaps :
  fs !! path_join dir "pglib_full.csv" = Some data →
  list_comp data is_converged Ok = Ok conv →
  list_comp conv always solve_time_of = Ok times →
  list_comp conv objective_positive gap_pct_of = Ok gaps →
  times ≠ [] → gaps ≠ [] →
  ∃ m g, upper_median times = Some m ∧ upper_median gaps = Some g ∧
         latex_pglib fs dir =
           MkM [LLatexSuite "PGLib" (length conv) (length data) m g] (Ok tt).
Proof.
  intros Hfs Hconv Htimes Hgaps Ht Hg.
  destruct (upper_median_is_Some times Ht) as [m Hm].
  destruct (upper_median_is_Some gaps Hg) as [g Hg'].
  exists m, g. split_and!; [done..|].
  unfold latex_pglib, exists_path, load_csv. rewrite Hfs.
  rewrite bool_decide_true by eauto.
  rewrite eval_bind, Hconv, eval_bind, Htimes, eval_bind, Hgaps, eval_bind.
  apply index_Ok in Hm, Hg'. by rewrite Hm, eval_bind, Hg', eval_bind.
Qed.

Lemma latex_opfdata_run dir data conv times gaps :
  fs !! path_join dir "opfdata_case118.csv" = Some data →
  list_comp data is_converged Ok = Ok conv →
  list_comp conv always solve_time_of = Ok times →
  list_comp conv always gap_pct_of = Ok gaps →
  times ≠ [] →
  ∃ m g, upper_median times = Some m ∧ upper_median gaps = Some g ∧
         latex_opfdata fs dir =
           MkM [LLatexSuite "OPFData" (length conv) (length data) m g] (Ok tt).
Proof.
  intros Hfs Hconv Htimes Hgaps Ht.
  assert (gaps ≠ []) as Hg.
  { apply nonempty_length. apply nonempty_length in Ht.
    apply list_comp_always_length in Htimes, Hgaps. lia. }
  destruct (upper_median_is_Some times Ht) as [m Hm].
  destruct (upper_median_is_Some gaps Hg) as [g Hg'].
  exists m, g. split_and!; [done..|].
  unfold latex_opfdata, exists_path, load_csv. rewrite Hfs.
  rewrite bool_decide_true by eauto.
  rewrite eval_bind, Hconv, eval_bind, Htimes, eval_bind, Hgaps, eval_bind.
  apply index_Ok in Hm, Hg'. by rewrite Hm, eval_bind, Hg', eval_bind.
Qed.

(** [analyze_pfdelta] once the loop over the cases has ended. *)
Lemma analyze_pfdelta_run dir out ts tc all :
  foldM (pfdelta_case fs dir) (0, 0, [])%nat ["case30"; "case57"; "case118"] =
    MkM out (Ok (ts, tc, all)) →
  analyze_pfdelta fs dir =
    prepend
      ([Text (nl +:+ rule 60); Text "PFDelta Power Flow Benchmark Results";
        Text (rule 60)]
       ++ out
       ++ (if (0 <? ts)%nat
           then [LTotal tc ts (100 * nat_Q tc / nat_Q ts)] else []))
      (pfdelta_overall all).
Proof.
  intros Hloop. unfold analyze_pfdelta. rewrite !print_bind, Hloop, MkM_bind.
  cbv beta iota. destruct (0 <? ts)%nat eqn:Hts.
  - apply Nat.ltb_lt in Hts.
    rewrite py_div_nat, eval_bind, print_bind, !prepend_prepend by done.
    f_equal.
  - rewrite mret_bind, !prepend_prepend. f_equal. simpl. by rewrite app_nil_r.
Qed.
End Drivers.

(** ** The statistics of the method comparison *)

Section MethodFacts.
Import AnalyzeResults.

Lemma mean_Ok data : data ≠ [] → mean data = Ok (sum data / nat_Q (length data))%Q.
Proof.
  intros Hdata. unfold mean. rewrite bool_decide_false by done.
  by apply py_div_nat, nonempty_length.
Qed.

(** [statistics.median] on an odd number of values is the upper median. *)
Lemma median_odd data :
  Nat.Odd (length data) →
  ∃ x, median data = Ok x ∧ upper_median data = Some x.
Proof.
  intros Hodd. unfold median, upper_median. rewrite sorted_length.
  assert (0 < length data) as Hlen by (destruct Hodd; lia).
  destruct (index_lt (sorted Qle_bool data) (length data / 2)) as (x & Hx & Hx').
  { rewrite sorted_length. by apply half_lt. }
  exists x. split; [|done].
  rewrite (proj2 (Nat.eqb_neq _ _)) by lia.
  assert (length data mod 2 = 1)%nat as ->; [|done].
  destruct Hodd as [k ->].
  by rewrite Nat.add_comm, Nat.mul_comm, Nat.Div0.mod_add.
Qed.

(** [statistics.median] on an even number of values is the midpoint of
    the two middle values. *)
Lemma median_even data :
  data ≠ [] → Nat.Even (length data) →
  ∃ a b, sorted Qle_bool data !! (length data / 2 - 1)%nat = Some a ∧
         upper_median data = Some b ∧
         median data = Ok ((a + b) / 2)%Q.
Proof.
  intros Hdata%nonempty_length Heven. unfold median, upper_median.
  rewrite sorted_length.
  destruct (index_lt (sorted Qle_bool data) (length data / 2)) as (b & Hb & Hb').
  { rewrite sorted_length. by apply half_lt. }
  destruct (index_lt (sorted Qle_bool data) (length data / 2 - 1)) as (a & Ha & Ha').
  { rewrite sorted_length. pose proof (half_lt _ Hdata). lia. }
  exists a, b. split_and!; [done..|].
  rewrite (proj2 (Nat.eqb_neq _ _)) by lia.
  assert (length data mod 2 = 0)%nat as ->.
  { destruct Heven as [k ->]. by rewrite Nat.mul_comm, Nat.Div0.mod_mul. }
  cbn [Nat.eqb]. by rewrite Ha, Hb.
Qed.

Lemma median_Ok data : data ≠ [] → ∃ x, median data = Ok x.
Proof.
  intros Hdata. destruct (Nat.Even_or_Odd (length data)) as [He|Ho].
  - destruct (median_even data Hdata He) as (a & b & _ & _ & ->). eauto.
  - destruct (median_odd data Ho) as (x & -> & _). eauto.
Qed.

Lemma max_Ok xs : xs ≠ [] → ∃ x, max xs = Ok x.
Proof. destruct xs; [done|]. simpl. eauto. Qed.

Lemma min_Ok xs : xs ≠ [] → ∃ x, min xs = Ok x.
Proof. destruct xs; [done|]. simpl. eauto. Qed.

Lemma stat_of_nil (f : list Q → res Q) e : f [] = Raise e → stat_of (f []) = None.
Proof. by intros ->. Qed.

(** The dictionary that [analyze_method] returns for a non-empty list of
    results. *)
Lemma analyze_method_stats name results :
  results ≠ [] →
  let conv := List.filter converged results in
  let with_baseline :=
    List.filter (λ r, Qgt_bool (baseline_objective r) 0) conv in
  let times := solve_time_ms <$> conv in
  let gaps := (λ r, objective_gap_rel r * 100)%Q <$> with_baseline in
  let vm := max_vm_violation_pu <$> conv in
  let branch := max_branch_flow_violation_mva <$> conv in
  ∃ stats,
    analyze_method name results = Ok stats ∧
    stats !! "method" = Some (SStr name) ∧
    stats !! "total_cases" = Some (SInt (Z.of_nat (length results))) ∧
    stats !! "converged" = Some (SInt (Z.of_nat (length conv))) ∧
    stats !! "convergence_rate" =
      Some (SFloat (nat_Q (length conv) / nat_Q (length results) * 100)) ∧
    stats !! "solve_time_mean_ms" = stat_of (mean times) ∧
    stats !! "solve_time_median_ms" = stat_of (median times) ∧
    stats !! "solve_time_max_ms" = stat_of (max times) ∧
    stats !! "objective_gap_mean_pct" = stat_of (mean gaps) ∧
    stats !! "objective_gap_median_pct" = stat_of (median gaps) ∧
    stats !! "objective_gap_max_pct" = stat_of (max gaps) ∧
    stats !! "objective_gap_min_pct" = stat_of (min gaps) ∧
    stats !! "vm_violation_max_pu" =
      Some (default (SInt 0) (stat_of (max vm))) ∧
    stats !! "branch_violation_max_mva" =
      Some (default (SInt 0) (stat_of (max branch))) ∧
    stats !! "cases_with_vm_violation" =
      Some (SInt (Z.of_nat (length (List.filter (λ v, Qgt_bool v 1e-6) vm)))) ∧
    stats !! "cases_with_branch_violation" =
      Some (SInt (Z.of_nat (length (List.filter (λ v, Qgt_bool v 1e-3) branch)))).
Proof.
  intros Hres conv with_baseline times gaps vm branch.
  unfold analyze_method. rewrite bool_decide_false by done.
  rewrite py_div_nat by by apply nonempty_length.
  fold conv with_baseline. simpl mbind at 1.
  destruct (decide (conv = [])) as [Hconv|Hconv].
  - assert (with_baseline = []) as Hwb by (unfold with_baseline; by rewrite Hconv).
    subst times gaps vm branch. rewrite Hwb, Hconv. simpl.
    eexists. split; [done|]. by simplify_map_eq.
  - assert (times ≠ []) as Htimes by (unfold times; by destruct conv).
    assert (vm ≠ []) as Hvm by (unfold vm; by destruct conv).
    assert (branch ≠ []) as Hbr by (unfold branch; by destruct conv).
    assert ((max_gen_p_violation_mw <$> conv) ≠ []) as Hgen by by destruct conv.
    assert (((λ r, inject_Z (iterations r)) <$> conv) ≠ []) as Hit by by destruct conv.
    rewrite (bool_decide_true (conv ≠ [])) by done.
    fold times vm branch.
    rewrite (bool_decide_true (vm ≠ [])), (bool_decide_true (branch ≠ [])) by done.
    rewrite (bool_decide_true (_ <$> conv ≠ [])) by done.
    rewrite (mean_Ok times), (mean_Ok (_ <$> conv)) by done.
    destruct (median_Ok times Htimes) as [tmed Htmed].
    destruct (max_Ok times Htimes) as [tmax Htmax].
    destruct (max_Ok vm Hvm) as [vmax Hvmax].
    destruct (max_Ok branch Hbr) as [bmax Hbmax].
    destruct (max_Ok _ Hgen) as [gmax Hgmax].
    rewrite Htmed, Htmax, Hvmax, Hbmax, Hgmax. simpl mbind at 1. cbv beta.
    simpl mbind at 1. simpl mbind at 1. simpl mbind at 1. simpl mbind at 1.
    destruct (decide (with_baseline = [])) as [Hwb|Hwb].
    + subst gaps. rewrite Hwb. simpl.
      eexists. split; [done|]. by simplify_map_eq.
    + assert (gaps ≠ []) as Hgaps by (unfold gaps; by destruct with_baseline).
      rewrite (bool_decide_true (with_baseline ≠ [])) by done. fold gaps.
      rewrite (mean_Ok gaps) by done.
      destruct (median_Ok gaps Hgaps) as [gmed Hgmed].
      destruct (max_Ok gaps Hgaps) as [gapmax Hgapmax].
      destruct (min_Ok gaps Hgaps) as [gapmin Hgapmin].
      rewrite Hgmed, Hgapmax, Hgapmin. simpl.
      eexists. split; [done|]. by simplify_map_eq.
Qed.
End MethodFacts.

(** A line that is an element of an explicit list of printed lines. *)
Ltac line_in_list :=
  first [ apply list_elem_of_here
        | apply list_elem_of_further; line_in_list
        | apply elem_of_app; first [left; line_in_list | right; line_in_list] ].
Ltac line_in := cbn [printed prepend app]; line_in_list.

(** * The claims *)

(** ** C1: the median convention *)

(** C1, as stated, fails in the method comparison: for the two converged
    results with solve times 10 and 30, [analyze_method] stores the
    interpolated midpoint 20 under [solve_time_median_ms], while
    [sorted(seq)[len(seq)//2]] is 30. *)
Lemma median_midpoint_in_method_comparison :
  let times :=
    AnalyzeResults.solve_time_ms <$>
      List.filter AnalyzeResults.converged Examples.two_results in
  ∃ stats x,
    AnalyzeResults.analyze_method "AC-OPF" Examples.two_results = Ok stats ∧
    stats !! "solve_time_median_ms" = Some (SFloat x) ∧
    (x == 20)%Q ∧
    upper_median times = Some 30%Q ∧
    ¬ (x == 30)%Q.
Proof.
  eexists _, _. split; [vm_compute; reflexivity|].
  split; [vm_compute; reflexivity|]. split_and!; done.
Qed.

(** C1, amended. Every median of [analyze_benchmarks.py] (the solve-time
    and gap medians of the full-network and single-case AC suites, the
    overall solve-time median of the contingency sweep, and the medians of
    the LaTeX data) is [sorted(seq)[len(seq)//2]], the upper median. The
    method comparison reports [statistics.median]: the same element when the
    number of values is odd, and the midpoint of the two middle elements when
    it is even. *)
Theorem median_convention `{PyParsers} (fs : gmap string (list (gmap string pyval))) :
  let pglib := AnalyzeBenchmarks.analyze_pglib fs in
  let opfdata := AnalyzeBenchmarks.analyze_opfdata fs in
  let pfdelta := AnalyzeBenchmarks.analyze_pfdelta fs in
  let is_converged := AnalyzeBenchmarks.is_converged in
  let solve_time_of := AnalyzeBenchmarks.solve_time_of in
  (* the full-network suite *)
  (∀ dir data conv times gaps,
     fs !! path_join dir "pglib_full.csv" = Some data →
     list_comp data is_converged Ok = Ok conv →
     list_comp conv always solve_time_of = Ok times →
     list_comp conv AnalyzeBenchmarks.objective_positive
       AnalyzeBenchmarks.gap_rel_of = Ok gaps →
     (times ≠ [] →
      ∃ m mean, upper_median times = Some m ∧
                LSolveTime m mean ∈ printed (pglib dir)) ∧
     (gaps ≠ [] →
      ∃ g mean, upper_median gaps = Some g ∧
                LObjGap (g * 100) mean ∈ printed (pglib dir))) ∧
  (* the single-case AC suite *)
  (∀ dir data conv times gaps,
     fs !! path_join dir "opfdata_case118.csv" = Some data →
     list_comp data is_converged Ok = Ok conv →
     list_comp conv always solve_time_of = Ok times →
     list_comp conv always AnalyzeBenchmarks.gap_rel_of = Ok gaps →
     times ≠ [] →
     ∃ m mean g gmean,
       upper_median times = Some m ∧ upper_median gaps = Some g ∧
       LSolveTime m mean ∈ printed (opfdata dir) ∧
       LObjGap (g * 100) gmean ∈ printed (opfdata dir)) ∧
  (* the contingency sweep *)
  (∀ dir out total_samples total_converged all_solve_times,
     foldM (AnalyzeBenchmarks.pfdelta_case fs dir) (0, 0, [])%nat
       ["case30"; "case57"; "case118"] =
       MkM out (Ok (total_samples, total_converged, all_solve_times)) →
     all_solve_times ≠ [] →
     ∃ m mean, upper_median all_solve_times = Some m ∧
               LOverall m mean ∈ printed (pfdelta dir)) ∧
  (* the LaTeX data *)
  (∀ dir data conv times gaps,
     fs !! path_join dir "pglib_full.csv" = Some data →
     list_comp data is_converged Ok = Ok conv →
     list_comp conv always solve_time_of = Ok times →
     list_comp conv AnalyzeBenchmarks.objective_positive
       AnalyzeBenchmarks.gap_pct_of = Ok gaps →
     times ≠ [] → gaps ≠ [] →
     ∃ m g, upper_median times = Some m ∧ upper_median gaps = Some g ∧
            AnalyzeBenchmarks.latex_pglib fs dir =
              MkM [LLatexSuite "PGLib" (length conv) (length data) m g] (Ok tt)) ∧
  (∀ dir data conv times gaps,
     fs !! path_join dir "opfdata_case118.csv" = Some data →
     list_comp data is_converged Ok = Ok conv →
     list_comp conv always solve_time_of = Ok times →
     list_comp conv always AnalyzeBenchmarks.gap_pct_of = Ok gaps →
     times ≠ [] →
     ∃ m g, upper_median times = Some m ∧ upper_median gaps = Some g ∧
            AnalyzeBenchmarks.latex_opfdata fs dir =
              MkM [LLatexSuite "OPFData" (length conv) (length data) m g] (Ok tt)) ∧
  (* the method comparison *)
  (∀ name results,
     results ≠ [] →
     let conv := List.filter AnalyzeResults.converged results in
     let times := AnalyzeResults.solve_time_ms <$> conv in
     let gaps :=
       (λ r, AnalyzeResults.objective_gap_rel r * 100)%Q <$>
         List.filter (λ r, Qgt_bool (AnalyzeResults.baseline_objective r) 0) conv in
     ∃ stats,
       AnalyzeResults.analyze_method name results = Ok stats ∧
       stats !! "solve_time_median_ms" = stat_of (AnalyzeResults.median times) ∧
       stats !! "objective_gap_median_pct" = stat_of (AnalyzeResults.median gaps)) ∧
  (∀ seq,
     (Nat.Odd (length seq) →
      ∃ x, AnalyzeResults.median seq = Ok x ∧ upper_median seq = Some x) ∧
     (seq ≠ [] → Nat.Even (length seq) →
      ∃ a b, sorted Qle_bool seq !! (length seq / 2 - 1)%nat = Some a ∧
             upper_median seq = Some b ∧
             AnalyzeResults.median seq = Ok ((a + b) / 2)%Q)).
Proof.
  intros pglib opfdata pfdelta is_conv time_of. split_and!.
  - intros dir data conv times gaps Hfs Hconv Htimes Hgaps.
    assert (conv ≠ [] → data ≠ []) as Hdata.
    { rewrite !nonempty_length. apply list_comp_length in Hconv. lia. }
    assert (times ≠ [] → data ≠ []) as Hdata_t.
    { intros Ht. apply Hdata. revert Ht. rewrite !nonempty_length.
      apply list_comp_always_length in Htimes. lia. }
    assert (gaps ≠ [] → data ≠ []) as Hdata_g.
    { intros Hg. apply Hdata. revert Hg. rewrite !nonempty_length.
      apply list_comp_length in Hgaps. lia. }
    split.
    + intros Ht. unfold pglib.
      rewrite (analyze_pglib_run fs dir data conv times gaps) by auto.
      destruct (pglib_solve_times_run (sorted Qle_bool times)) as (m & lo & hi & Hm & ->).
      { by apply sorted_nonempty. }
      rewrite sorted_length in Hm. eexists m, _. split; [done|].
      line_in.
    + intros Hg. unfold pglib.
      rewrite (analyze_pglib_run fs dir data conv times gaps) by auto.
      destruct (pglib_gaps_run (sorted Qle_bool gaps)) as (g & lo & hi & Hg' & ->).
      { by apply sorted_nonempty. }
      rewrite sorted_length in Hg'. eexists g, _. split; [done|].
      line_in.
  - intros dir data conv times gaps Hfs Hconv Htimes Hgaps Ht.
    assert (gaps ≠ []) as Hg.
    { revert Ht. rewrite !nonempty_length.
      apply list_comp_always_length in Htimes, Hgaps. lia. }
    assert (data ≠ []) as Hdata.
    { revert Ht. rewrite !nonempty_length. apply list_comp_length in Hconv.
      apply list_comp_always_length in Htimes. lia. }
    unfold opfdata.
    rewrite (analyze_opfdata_run fs dir data conv times gaps) by auto.
    destruct (opfdata_solve_times_run (sorted Qle_bool times))
      as (m & ? & ? & Hm & _ & _ & ->); [by apply sorted_nonempty|].
    destruct (opfdata_gaps_run (sorted Qle_bool gaps))
      as (g & ? & ? & Hg' & _ & _ & ->); [by apply sorted_nonempty|].
    rewrite sorted_length in Hm, Hg'. eexists m, _, g, _.
    split_and!; [done|done|line_in..].
  - intros dir out ts tc all Hloop Hall. unfold pfdelta.
    rewrite (analyze_pfdelta_run fs dir out ts tc all Hloop).
    destruct (pfdelta_overall_run all Hall) as (m & Hm & ->).
    eexists m, _. split; [done|]. line_in.
  - intros dir data conv times gaps. apply latex_pglib_run.
  - intros dir data conv times gaps. apply latex_opfdata_run.
  - intros name results Hres conv times gaps.
    destruct (analyze_method_stats name results Hres)
      as (stats & Hstats & _ & _ & _ & _ & _ & Htm & _ & _ & Hgm & _).
    eauto.
  - intros seq. split; [apply median_odd|apply median_even].
Qed.

(** The three-row file of the full-network suite: the solve times of the
    two converged rows are 10 and 30, and the median printed is 30. *)
Lemma median_convention_witness :
  let fs := Examples.fs_pglib in
  let run := AnalyzeBenchmarks.analyze_pglib (H:=decimal_parsers) fs "results" in
  fs !! path_join "results" "pglib_full.csv" = Some Examples.three_rows ∧
  [10; 30]%Q ≠ [] ∧
  ∃ mean, upper_median [10; 30]%Q = Some 30%Q ∧ LSolveTime 30 mean ∈ printed run.
Proof.
  intros fs run.
  destruct (median_convention (H:=decimal_parsers) fs) as (Hpglib & _).
  destruct (Hpglib "results" Examples.three_rows (take 2 Examples.three_rows)
              [10; 30]%Q [1 # 20; 3 # 20]%Q) as [Htimes _];
    [vm_compute; reflexivity..|].
  split; [vm_compute; reflexivity|]. split; [done|].
  destruct (Htimes ltac:(done)) as (m & mean & Hm & Hline).
  exists mean. assert (m = 30%Q) as -> by (vm_compute in Hm; congruence).
  done.
Defined.
